(** * multiboot/config.py: the accessor layer over [defaults.conf]

    A shallow embedding of [scripts/multiboot/config.py].  The module keeps
    two globals, [py3] and [config]; every function of the module is a
    computation over that module state which either returns a value or
    raises a Python exception.

    Scope of the library model.  [config] is a [ConfigParser] object of the
    Python standard library.  Its content is modelled as the mapping the
    accessors observe: section name -> option name -> value.  The
    operations on it follow the library's documented behaviour: the
    subscript [config[section]] raises [KeyError] for a section the parser
    does not have, [has_option] answers [False] for one, [get] raises
    [NoSectionError] or [NoOptionError].  The parser's [DEFAULT]
    pseudo-section, option-name normalisation and value interpolation are
    library features that [config.py] never refers to; documents are taken
    without them. *)

From Stdlib Require Import ZArith.
From stdpp Require Import base option gmap strings fin_maps.

Open Scope string_scope.

(** ** Exceptions and outcomes *)

(** The exceptions the module can let escape.  [KeyError] comes from the
    mapping protocol ([config[section]], [proxy[option]]); [NoSectionError]
    and [NoOptionError] from the method API ([config.get]);
    [ParsingError] from [config.read] on a malformed file. *)
Inductive exn : Type :=
| KeyError (key : string)
| NoSectionError (section : string)
| NoOptionError (option section : string)
| ParsingError (source : string).

(** The spec's error taxonomy: a LookupError is a missing-section or a
    missing-option failure. *)
Definition LookupError (e : exn) : Prop :=
  match e with
  | KeyError _ | NoSectionError _ | NoOptionError _ _ => True
  | ParsingError _ => False
  end.

Inductive result (A : Type) : Type :=
| Return (a : A)
| Raise (e : exn).
Arguments Return {A} a.
Arguments Raise {A} e.

(** ** Module state and the computation monad *)

(** The two module-level globals of [config.py]. *)
Record module_state : Type := ModuleState {
  py3 : bool;
  config : gmap string (gmap string string)
}.

(** A computation threads the module state and may raise. *)
Definition M (A : Type) : Type := module_state → result A * module_state.

Definition ret {A} (a : A) : M A := λ st, (Return a, st).

Definition raise {A} (e : exn) : M A := λ st, (Raise e, st).

Definition bind {A B} (c : M A) (k : A → M B) : M B :=
  λ st, match c st with
        | (Return a, st') => k a st'
        | (Raise e, st') => (Raise e, st')
        end.

Notation "'let*' x ':=' c 'in' k" := (bind c (λ x, k))
  (at level 10, x name, c at level 100, k at level 200,
   format "'[v' 'let*'  x  ':='  c  'in' '/' k ']'").

(** Reading the globals. *)
Definition read_py3 : M bool := λ st, (Return (py3 st), st).
Definition read_config : M (gmap string (gmap string string)) :=
  λ st, (Return (config st), st).

(** ** The [ConfigParser] operations used by the module *)

Module ConfigParser.

(** [parser.has_option(section, option)]: [False] for a missing section. *)
Definition has_option (section option : string) : M bool :=
  let* cfg := read_config in
  match cfg !! section with
  | None => ret false
  | Some opts => ret (bool_decide (is_Some (opts !! option)))
  end.

(** [parser.get(section, option)]: the method API. *)
Definition get (section option : string) : M string :=
  let* cfg := read_config in
  match cfg !! section with
  | None => raise (NoSectionError section)
  | Some opts =>
      match opts !! option with
      | None => raise (NoOptionError option section)
      | Some value => ret value
      end
  end.

(** [parser[section]]: the section proxy, or [KeyError] when the parser
    has no such section.  A proxy holds its parser and its section name;
    the parser being the module's only one, a proxy is its name. *)
Definition getitem (section : string) : M string :=
  let* cfg := read_config in
  match cfg !! section with
  | None => raise (KeyError section)
  | Some _ => ret section
  end.

(** [option in proxy]. *)
Definition proxy_contains (proxy option : string) : M bool :=
  has_option proxy option.

(** [proxy[option]]: [KeyError] unless the parser has the option. *)
Definition proxy_getitem (proxy option : string) : M string :=
  let* present := has_option proxy option in
  if present then get proxy option else raise (KeyError option).



End ConfigParser.

(** ** [config.py] *)


(** Truth value of a Python [str]: false exactly for the empty string. *)
Definition truthy (s : string) : bool := negb (bool_decide (s = "")).

(** Lines 20-24. *)
Definition get (section option : string) : M string :=
  let* v3 := read_py3 in
  if v3 then
    let* proxy := ConfigParser.getitem section in
    ConfigParser.proxy_getitem proxy option
  else
    ConfigParser.get section option.

(** Lines 27-31.  Under Python 3 the subscript [config[section]] is
    evaluated first, the membership test second. *)
Definition has (section option : string) : M bool :=
  let* v3 := read_py3 in
  if v3 then
    let* proxy := ConfigParser.getitem section in
    ConfigParser.proxy_contains proxy option
  else
    ConfigParser.has_option section option.

(** Lines 34-35. *)
Definition get_device : M string :=
  get "Defaults" "device".

(** Lines 38-46.  [None] is the absent result.  [get_device()] is called
    once for the test and once more for the lookup, as in the source; the
    condition of line 41 is the truth value of [value and value ==
    'unchanged']. *)
Definition get_selinux : M (option string) :=
  let* d := get_device in
  let* present := has d "selinux" in
  if present then
    let* d' := get_device in
    let* value := get d' "selinux" in
    if truthy value && bool_decide (value = "unchanged")
    then ret None
    else ret (Some value)
  else
    ret None.

(** Lines 49-53. *)
Definition get_ramdisk_offset : M (option string) :=
  let* d := get_device in
  let* present := has d "ramdisk_offset" in
  if present then
    let* d' := get_device in
    let* value := get d' "ramdisk_offset" in
    ret (Some value)
  else
    ret None.

(** Lines 56-60. *)
Definition get_partition (partition : string) : M (option string) :=
  let* d := get_device in
  let* present := has d ("partition." +:+ partition) in
  if present then
    let* d' := get_device in
    let* value := get d' ("partition." +:+ partition) in
    ret (Some value)
  else
    ret None.

(** ** The public surface as data

    A [call] names one invocation of a public accessor together with its
    arguments; [invoke] performs it and injects the Python result into one
    type, so that statements can range over every accessor at once. *)

Inductive call : Type :=
| CallGet (section option : string)
| CallHas (section option : string)
| CallGetDevice
| CallGetSelinux
| CallGetRamdiskOffset
| CallGetPartition (partition : string).

Inductive value : Type :=
| VStr (s : string)
| VBool (b : bool)
| VNone.

Definition optional (o : option string) : value :=
  match o with
  | Some s => VStr s
  | None => VNone
  end.

Definition invoke (c : call) : M value :=
  match c with
  | CallGet section option => let* v := get section option in ret (VStr v)
  | CallHas section option => let* b := has section option in ret (VBool b)
  | CallGetDevice => let* v := get_device in ret (VStr v)
  | CallGetSelinux => let* o := get_selinux in ret (optional o)
  | CallGetRamdiskOffset => let* o := get_ramdisk_offset in ret (optional o)
  | CallGetPartition partition =>
      let* o := get_partition partition in ret (optional o)
  end.

(** The state left by a sequence of calls, whatever their outcomes. *)
Definition after (cs : list call) (st : module_state) : module_state :=
  foldl (λ st c, (invoke c st).2) st cs.

(** ** Vocabulary of the specification *)

(** [option] is stored with value [v] in [section] of the document. *)
Definition stored (cfg : gmap string (gmap string string))
    (section option v : string) : Prop :=
  ∃ opts, cfg !! section = Some opts ∧ opts !! option = Some v.

(** The section is missing, or it exists and lacks the option. *)
Definition missing (cfg : gmap string (gmap string string))
    (section option : string) : Prop :=
  cfg !! section = None ∨
  ∃ opts, cfg !! section = Some opts ∧ opts !! option = None.

(** [get_selinux] in the words of the specification: absent when the key
    is missing, when the value is empty and when it is ["unchanged"]. *)
Definition get_selinux_spec (opts : gmap string string) : option string :=
  match opts !! "selinux" with
  | None => None
  | Some v =>
      if bool_decide (v = "") || bool_decide (v = "unchanged")
      then None
      else Some v
  end.

(** ** Sample documents *)

Definition deviceA_doc : gmap string (gmap string string) :=
  {[ "Defaults" := {[ "device" := "deviceA" ]};
     "deviceA" := {[ "selinux" := "permissive";
                     "ramdisk_offset" := "unchanged";
                     "partition.boot" := "/dev/sda1";
                     "partition.cache" := "" ]} ]}.


Definition no_device_doc : gmap string (gmap string string) :=
  {[ "Defaults" := {[ "verbose" := "1" ]};
     "deviceA" := {[ "selinux" := "permissive" ]} ]}.

Definition deviceA_py3 : module_state := ModuleState true deviceA_doc.
Definition deviceA_py2 : module_state := ModuleState false deviceA_doc.



(** A computation is read-only when it hands back the state it was given,
    whether it returns or raises. *)
Definition read_only {A} (c : M A) : Prop := ∀ st, (c st).2 = st.

(** ** Proof support *)

Create HintDb ro discriminated.

(** Unfolds an accessor down to the lookups in the document. *)
Ltac run :=
  unfold get, has, ConfigParser.proxy_getitem, ConfigParser.proxy_contains,
    ConfigParser.getitem, ConfigParser.get, ConfigParser.has_option,
    bind, ret, raise, read_py3, read_config;
  simpl.

(** ** Running computations *)

Lemma bind_return {A B} (c : M A) (k : A → M B) st a st' :
  c st = (Return a, st') → bind c k st = k a st'.
Proof. unfold bind. by intros ->. Qed.

Lemma bind_raise {A B} (c : M A) (k : A → M B) st e st' :
  c st = (Raise e, st') → bind c k st = (Raise e, st').
Proof. unfold bind. by intros ->. Qed.

Lemma read_only_run {A} (c : M A) st r :
  read_only c → (c st).1 = r → c st = (r, st).
Proof.
  intros Hc Hr. specialize (Hc st).
  destruct (c st) as [r' st']; simpl in *. congruence.
Qed.

Lemma read_only_ret {A} (a : A) : read_only (ret a).
Proof. by intros st. Qed.

Lemma read_only_raise {A} (e : exn) : read_only (@raise A e).
Proof. by intros st. Qed.

Lemma read_only_bind {A B} (c : M A) (k : A → M B) :
  read_only c → (∀ a, read_only (k a)) → read_only (bind c k).
Proof.
  intros Hc Hk st. unfold bind. specialize (Hc st).
  destruct (c st) as [[a|e] st']; simpl in *; subst; [apply Hk | done].
Qed.

Lemma read_only_if {A} (b : bool) (c1 c2 : M A) :
  read_only c1 → read_only c2 → read_only (if b then c1 else c2).
Proof. by destruct b. Qed.

Lemma read_only_py3 : read_only read_py3.
Proof. by intros st. Qed.

Lemma read_only_config : read_only read_config.
Proof. by intros st. Qed.

#[local] Hint Resolve read_only_ret read_only_raise read_only_bind
  read_only_if read_only_py3 read_only_config : ro.

Lemma has_option_read_only s o : read_only (ConfigParser.has_option s o).
Proof.
  unfold ConfigParser.has_option. apply read_only_bind; auto with ro.
  intros cfg. destruct (cfg !! s); auto with ro.
Qed.

Lemma parser_get_read_only s o : read_only (ConfigParser.get s o).
Proof.
  unfold ConfigParser.get. apply read_only_bind; auto with ro.
  intros cfg. destruct (cfg !! s) as [opts|]; auto with ro.
  destruct (opts !! o); auto with ro.
Qed.

Lemma getitem_read_only s : read_only (ConfigParser.getitem s).
Proof.
  unfold ConfigParser.getitem. apply read_only_bind; auto with ro.
  intros cfg. destruct (cfg !! s); auto with ro.
Qed.

#[local] Hint Resolve has_option_read_only parser_get_read_only
  getitem_read_only : ro.

Lemma proxy_contains_read_only p o :
  read_only (ConfigParser.proxy_contains p o).
Proof. unfold ConfigParser.proxy_contains. auto with ro. Qed.

Lemma proxy_getitem_read_only p o :
  read_only (ConfigParser.proxy_getitem p o).
Proof. unfold ConfigParser.proxy_getitem. auto with ro. Qed.

#[local] Hint Resolve proxy_contains_read_only proxy_getitem_read_only : ro.

Lemma get_read_only s o : read_only (get s o).
Proof. unfold get. auto 6 with ro. Qed.

Lemma has_read_only s o : read_only (has s o).
Proof. unfold has. auto 6 with ro. Qed.

Lemma get_device_read_only : read_only get_device.
Proof. apply get_read_only. Qed.

#[local] Hint Resolve get_read_only has_read_only get_device_read_only : ro.

Lemma get_selinux_read_only : read_only get_selinux.
Proof. unfold get_selinux. auto 12 with ro. Qed.

Lemma get_ramdisk_offset_read_only : read_only get_ramdisk_offset.
Proof. unfold get_ramdisk_offset. auto 12 with ro. Qed.

Lemma get_partition_read_only p : read_only (get_partition p).
Proof. unfold get_partition. auto 12 with ro. Qed.

#[local] Hint Resolve get_selinux_read_only get_ramdisk_offset_read_only
  get_partition_read_only : ro.

Lemma invoke_read_only c : read_only (invoke c).
Proof. destruct c; simpl; auto with ro. Qed.

Lemma after_id cs st : after cs st = st.
Proof.
  unfold after. induction cs as [|c cs IH]; simpl; [done |].
  by rewrite invoke_read_only.
Qed.

(** ** What [get] and [has] compute *)

Lemma get_stored st s o opts v :
  config st !! s = Some opts → opts !! o = Some v →
  get s o st = (Return v, st).
Proof.
  intros Hs Ho. run. destruct (py3 st); rewrite ?Hs; simpl; rewrite ?Hs, ?Ho;
    simpl; by rewrite ?Hs, ?Ho.
Qed.

Lemma get_no_section st s o :
  config st !! s = None →
  get s o st =
    (Raise (if py3 st then KeyError s else NoSectionError s), st).
Proof. intros Hs. run. destruct (py3 st); by rewrite Hs. Qed.

Lemma get_no_option st s o opts :
  config st !! s = Some opts → opts !! o = None →
  get s o st =
    (Raise (if py3 st then KeyError o else NoOptionError o s), st).
Proof.
  intros Hs Ho. run. destruct (py3 st); rewrite Hs; simpl; by rewrite ?Hs, ?Ho.
Qed.

Lemma has_section st s o opts :
  config st !! s = Some opts →
  has s o st = (Return (bool_decide (is_Some (opts !! o))), st).
Proof.
  intros Hs. run. destruct (py3 st); rewrite Hs; simpl; by rewrite ?Hs.
Qed.

Lemma has_no_section st s o :
  config st !! s = None →
  has s o st = (if py3 st then Raise (KeyError s) else Return false, st).
Proof. intros Hs. run. destruct (py3 st); by rewrite Hs. Qed.

(** The outcome of [get] in one equation. *)
Lemma get_cases st s o :
  (∃ v, stored (config st) s o v ∧ get s o st = (Return v, st)) ∨
  (∃ e, missing (config st) s o ∧ LookupError e ∧
        get s o st = (Raise e, st)).
Proof.
  destruct (config st !! s) as [opts|] eqn:Hs.
  - destruct (opts !! o) as [v|] eqn:Ho.
    + left. exists v. split; [by exists opts | by eapply get_stored].
    + right. eexists. split; [right; by exists opts |].
      split; [| by eapply get_no_option]. by destruct (py3 st).
  - right. eexists. split; [by left |].
    split; [| by apply get_no_section]. by destruct (py3 st).
Qed.

Lemma stored_not_missing cfg s o v : stored cfg s o v → ¬ missing cfg s o.
Proof.
  intros (opts & Hs & Ho) [Hn | (opts' & Hs' & Ho')]; congruence.
Qed.

(** The device resolves to section [d] with options [opts]. *)
Lemma device_run st d :
  (get_device st).1 = Return d → get_device st = (Return d, st).
Proof. apply read_only_run, get_device_read_only. Qed.

(** The shared shape of the three device-scoped accessors once the device
    has resolved: a [has] on the section followed by a [get]. *)
Lemma device_lookup st d opts key (k : string → M (option string)) :
  (get_device st).1 = Return d →
  config st !! d = Some opts →
  (let* d := get_device in
   let* present := has d key in
   if present then
     let* d' := get_device in
     let* value := get d' key in
     k value
   else ret None) st
  = match opts !! key with
    | Some value => k value st
    | None => (Return None, st)
    end.
Proof.
  intros Hd%device_run Hs.
  rewrite (bind_return _ _ _ _ _ Hd).
  rewrite (bind_return _ _ _ _ _ (has_section st d key opts Hs)).
  destruct (opts !! key) as [value|] eqn:Hk.
  - rewrite bool_decide_eq_true_2 by eauto.
    rewrite (bind_return _ _ _ _ _ Hd).
    by rewrite (bind_return _ _ _ _ _ (get_stored st d key opts value Hs Hk)).
  - rewrite bool_decide_eq_false_2; [done |]. by intros [? ?].
Qed.

(** When the device does not resolve, the failure of [get_device] is the
    failure of the whole accessor. *)
Lemma device_failure {A} st e (k : string → M A) :
  get_device st = (Raise e, st) →
  (let* d := get_device in k d) st = (Raise e, st).
Proof. apply bind_raise. Qed.

Lemma get_device_missing st :
  missing (config st) "Defaults" "device" →
  ∃ e, LookupError e ∧ get_device st = (Raise e, st).
Proof.
  intros Hm. destruct (get_cases st "Defaults" "device")
    as [(v & Hv & _) | (e & _ & He & Hrun)].
  - by destruct (stored_not_missing _ _ _ _ Hv).
  - by exists e.
Qed.

(** ** The scenarios of the specification *)

Example scenario_device : (get_device deviceA_py3).1 = Return "deviceA".
Proof. reflexivity. Qed.

Example scenario_selinux :
  (get_selinux deviceA_py3).1 = Return (Some "permissive").
Proof. reflexivity. Qed.

Example scenario_partition :
  (get_partition "boot" deviceA_py3).1 = Return (Some "/dev/sda1") ∧
  (get_partition "recovery" deviceA_py3).1 = Return None.
Proof. split; reflexivity. Qed.

(** ** [get_selinux] *)


(** Once the device has resolved, [get_selinux] is a function of the
    device section alone. *)
Lemma get_selinux_run st d opts :
  (get_device st).1 = Return d →
  config st !! d = Some opts →
  get_selinux st =
    (Return match opts !! "selinux" with
            | None => None
            | Some v => if bool_decide (v = "unchanged") then None else Some v
            end, st).
Proof.
  intros Hd Hs. unfold get_selinux.
  etrans;
    [exact (device_lookup st d opts "selinux"
              (λ value, if truthy value && bool_decide (value = "unchanged")
                        then ret None else ret (Some value)) Hd Hs) |].
  destruct (opts !! "selinux") as [v|]; [| done].
  unfold truthy. repeat case_bool_decide; subst; simpl; done.
Qed.



(** Away from the empty string the code and the specification's wording
    agree. *)
Lemma get_selinux_spec_agrees st d opts :
  (get_device st).1 = Return d →
  config st !! d = Some opts →
  opts !! "selinux" ≠ Some "" →
  (get_selinux st).1 = Return (get_selinux_spec opts).
Proof.
  intros Hd Hs Hne. rewrite (get_selinux_run st d opts Hd Hs). simpl.
  unfold get_selinux_spec. destruct (opts !! "selinux") as [v|]; [| done].
  repeat case_bool_decide; subst; simpl; congruence.
Qed.

(** ** [has] *)

(** The Python 2 branch of [has] (line 31) never raises. *)
Lemma has_py2_total st s o :
  py3 st = false → ∃ b, has s o st = (Return b, st).
Proof.
  intros Hv. destruct (config st !! s) as [opts|] eqn:Hs.
  - eexists. by eapply has_section.
  - exists false. rewrite (has_no_section st s o Hs). by rewrite Hv.
Qed.

(** On an existing section [has] reports the presence of the option, in
    both branches. *)
Lemma has_absent_option st s o opts :
  config st !! s = Some opts → opts !! o = None →
  has s o st = (Return false, st).
Proof. intros Hs Ho. rewrite (has_section st s o opts Hs). by rewrite Ho. Qed.

(** C2: the code at the failing input.  Under Python 3 (line 29)
    [config[section]] is evaluated before the membership test, so [has] on
    a section the document does not have raises [KeyError]; the Python 2
    branch (line 31) returns [False] on the same document. *)
Theorem has_missing_section_py3_raises :
  config deviceA_py3 !! "deviceB" = None ∧
  has "deviceB" "selinux" deviceA_py3
    = (Raise (KeyError "deviceB"), deviceA_py3) ∧
  has "deviceB" "selinux" deviceA_py2 = (Return false, deviceA_py2).
Proof. repeat split. Qed.

(** ** [get] *)





(** ** [get_device] *)

(** C5: [get_device()] is [get("Defaults", "device")]: the same outcome on
    every state, hence the stored string when the key is present and the
    same LookupError when the section or the key is missing. *)
Theorem get_device_is_get st :
  get_device st = get "Defaults" "device" st ∧
  (∀ v, stored (config st) "Defaults" "device" v →
        get_device st = (Return v, st)) ∧
  (missing (config st) "Defaults" "device" →
   ∃ e, LookupError e ∧
        get_device st = (Raise e, st) ∧
        get "Defaults" "device" st = (Raise e, st)).
Proof.
  split; [reflexivity |]. split.
  - intros v (opts & Hs & Ho). by eapply get_stored.
  - intros Hm. destruct (get_device_missing st Hm) as (e & He & Hrun).
    by exists e.
Qed.

Lemma get_device_is_get_witness :
  get_device deviceA_py3 = (Return "deviceA", deviceA_py3).
Proof.
  apply (proj1 (proj2 (get_device_is_get deviceA_py3))).
  eexists. split; reflexivity.
Defined.

(** ** [get_ramdisk_offset] and [get_partition] *)





(** ** Loading *)


(** A failure of [get_device] is the failure of each device-scoped
    accessor. *)
Lemma device_scoped_failure st e :
  get_device st = (Raise e, st) →
  get_selinux st = (Raise e, st) ∧
  get_ramdisk_offset st = (Raise e, st) ∧
  ∀ name, get_partition name st = (Raise e, st).
Proof.
  intros Hd. repeat split; intros; by apply device_failure.
Qed.



(** ** Frame and determinism *)

(** C8: every public accessor, on every state and with every argument,
    leaves the document (and the rest of the module state) as it found
    it, whether it returns or raises. *)
Theorem accessors_preserve_document st c :
  config (invoke c st).2 = config st ∧ (invoke c st).2 = st.
Proof. by rewrite invoke_read_only. Qed.



(** C10: for a fixed document every public accessor is deterministic.
    Calling it again right away gives the same outcome, and so does
    calling it after any sequence of other accessor calls: the outcome is
    that of the call on the document alone. *)
Theorem accessors_deterministic st c cs :
  (invoke c (invoke c st).2).1 = (invoke c st).1 ∧
  (invoke c (after cs st)).1 = (invoke c st).1.
Proof. by rewrite invoke_read_only, after_id. Qed.

(** * Further properties of the module *)

(** ** Outcomes of [has] *)





(** ** The exceptions of [get] *)





(** ** The device-scoped accessors on every document *)

(** The device resolves to a name that is no section of the document. *)
Lemma device_dangling st d key (k : string → M (option string)) :
  (get_device st).1 = Return d →
  config st !! d = None →
  (let* d := get_device in
   let* present := has d key in
   if present then
     let* d' := get_device in
     let* value := get d' key in
     k value
   else ret None) st
  = (if py3 st then Raise (KeyError d) else Return None, st).
Proof.
  intros Hd%device_run Hs.
  rewrite (bind_return _ _ _ _ _ Hd).
  pose proof (has_no_section st d key Hs) as Hhas.
  destruct (py3 st).
  - by rewrite (bind_raise _ _ _ _ _ Hhas).
  - by rewrite (bind_return _ _ _ _ _ Hhas).
Qed.

(** Every outcome of the shared shape: a failure, the absent result, or
    the continuation run on a value stored in the device section. *)
Lemma device_lookup_cases st key (k : string → M (option string)) :
  let c := (let* d := get_device in
            let* present := has d key in
            if present then
              let* d' := get_device in
              let* value := get d' key in
              k value
            else ret None) in
  (∃ e, c st = (Raise e, st)) ∨
  c st = (Return None, st) ∨
  (∃ d v, (get_device st).1 = Return d ∧
          stored (config st) d key v ∧ c st = k v st).
Proof.
  intros c. destruct (get_device st).1 as [d|e] eqn:Hd.
  - destruct (config st !! d) as [opts|] eqn:Hs.
    + subst c. rewrite (device_lookup st d opts key k Hd Hs).
      destruct (opts !! key) as [v|] eqn:Hk.
      * right. right. exists d, v. split; [done |]. split; [| done].
        by exists opts.
      * right. by left.
    + subst c. rewrite (device_dangling st d key k Hd Hs).
      destruct (py3 st); [left; by eexists | right; by left].
  - left. exists e. apply bind_raise.
    by apply read_only_run; [apply get_device_read_only |].
Qed.





(** Whatever [get_device()] raises is what each device-scoped accessor
    raises: no accessor catches or replaces the exception. *)
Theorem device_failure_propagates st e :
  (get_device st).1 = Raise e →
  (get_selinux st).1 = Raise e ∧
  (get_ramdisk_offset st).1 = Raise e ∧
  ∀ name, (get_partition name st).1 = Raise e.
Proof.
  intros Hd.
  assert (Hrun : get_device st = (Raise e, st))
    by by apply read_only_run; [apply get_device_read_only |].
  destruct (device_scoped_failure st e Hrun) as (Hs & Hr & Hp).
  rewrite Hs, Hr. repeat split. intros name. by rewrite Hp.
Qed.

Lemma device_failure_propagates_witness :
  (get_selinux (ModuleState false no_device_doc)).1
    = Raise (NoOptionError "device" "Defaults") ∧
  (get_ramdisk_offset (ModuleState false no_device_doc)).1
    = Raise (NoOptionError "device" "Defaults") ∧
  ∀ name, (get_partition name (ModuleState false no_device_doc)).1
          = Raise (NoOptionError "device" "Defaults").
Proof.
  exact (device_failure_propagates (ModuleState false no_device_doc)
           (NoOptionError "device" "Defaults") eq_refl).
Defined.

(** On every document and under either Python version, [get_selinux()]
    never returns the string ["unchanged"]. *)
Theorem get_selinux_never_unchanged st :
  (get_selinux st).1 ≠ Return (Some "unchanged").
Proof.
  destruct (device_lookup_cases st "selinux"
              (λ value, if truthy value && bool_decide (value = "unchanged")
                        then ret None else ret (Some value)))
    as [[e Hc] | [Hc | (d & v & _ & _ & Hc)]];
    unfold get_selinux; rewrite Hc; simpl; try done.
  unfold truthy. repeat case_bool_decide; subst; simpl; congruence.
Qed.



(** ** Loading, then reading *)







